(** * mplsoccer.quiver: [arrows] and its legend handler [HandlerQuiver]

    A shallow embedding of [src/mplsoccer/quiver.py].

    - Python floats are Rocq's primitive binary64 floats, so that every
      [/ 72.] and [* 72.] of the source rounds as it does in Python.
    - Python exceptions are an error monad [Py.result].
    - [**kwargs] is a finite map from keyword to value; [kwargs.pop] is
      lookup-with-default followed by deletion, threaded explicitly.
    - A numpy array after [np.ravel] is the list of its elements in
      row-major order; [.size] is its length.
    - The plotting library is not modelled: [arrows] is followed up to the
      call [ax.quiver(...)] and the call is recorded with all its arguments;
      [create_artists] is followed up to the construction of
      [patches.FancyArrow(...)], recorded likewise. The registration of the
      handler with [Legend.update_default_handler_map], which follows the
      quiver call, changes none of the values studied here. *)

From Stdlib Require Import ZArith Floats.
From stdpp Require Import base option list strings gmap.

Local Open Scope string_scope.

(** ** Python values and exceptions *)

Module Py.

Inductive exn : Type :=
| TypeError (msg : string)
| ValueError (msg : string)
| AttributeError (msg : string)
| ZeroDivisionError (msg : string)
| OverflowError (msg : string)
| IndexError (msg : string).

Inductive result (A : Type) : Type :=
| Ok (a : A)
| Raise (e : exn).
Arguments Ok {A} a.
Arguments Raise {A} e.

#[global] Instance result_ret : MRet result := fun _ a => Ok a.
#[global] Instance result_bind : MBind result :=
  fun _ _ f m => match m with Ok a => f a | Raise e => Raise e end.

Definition returned {A} (r : result A) : option A :=
  match r with Ok a => Some a | Raise _ => None end.


(** The values that travel through [*args] and [**kwargs]. *)
Inductive value : Type :=
| VNone
| VInt (z : Z)
| VFloat (x : float)
| VStr (s : string).

(** [float(z)] for a Python int: round to nearest even, and
    OverflowError when the result does not fit a double. *)
Definition float_of_int (z : Z) : result float :=
  let x := SF2Prim (binary_normalize prec emax z 0 false) in
  if PrimFloat.is_infinity x
  then Raise (OverflowError "int too large to convert to float")
  else Ok x.

(** [a / b] on two floats. *)
Definition float_truediv (a b : float) : result float :=
  if PrimFloat.eqb b 0%float
  then Raise (ZeroDivisionError "float division by zero")
  else Ok (PrimFloat.div a b).

(** [a / b] where [b] is a float and [a] any value. *)
Definition truediv (a : value) (b : float) : result value :=
  match a with
  | VFloat x => q ← float_truediv x b; Ok (VFloat q)
  | VInt z => x ← float_of_int z; q ← float_truediv x b; Ok (VFloat q)
  | VNone | VStr _ =>
      Raise (TypeError "unsupported operand type(s) for /")
  end.

(** [d.pop(key, dflt)]: the value found or the default, and the
    dictionary without the key. *)
Definition pop (key : string) (dflt : value) (d : gmap string value)
  : value * gmap string value :=
  (default dflt (d !! key), delete key d).

(** [l[0]] and [l[-1]] on a sequence. *)
Definition first {A} (l : list A) : result A :=
  match l with
  | x :: _ => Ok x
  | [] => Raise (IndexError "index out of range")
  end.

Definition final {A} (l : list A) : result A :=
  match last l with
  | Some x => Ok x
  | None => Raise (IndexError "index out of range")
  end.

End Py.

Import Py.

(** ** The part of numpy the module uses *)

Module Np.

(** What the docstring calls "array-like or scalar": a number, or an
    array given by its shape and its elements in row-major order. The
    shape plays no part once the array is flattened. *)
Inductive array_like : Type :=
| Scalar (x : float)
| Array (shape : list nat) (data : list float).

(** [np.ravel]: a scalar becomes an array of one element, an array is
    flattened in row-major order. *)
Definition ravel (a : array_like) : list float :=
  match a with
  | Scalar x => [x]
  | Array _ data => data
  end.

(** [.size] of a flattened array. *)
Definition size (a : list float) : nat := length a.

(** [a - b] on flattened arrays, with numpy's broadcasting: equal
    lengths subtract elementwise, a length-one operand is stretched,
    anything else is an error. *)
Definition subtract (a b : list float) : result (list float) :=
  if decide (length a = length b) then Ok (zip_with PrimFloat.sub a b)
  else match a, b with
       | [x], _ => Ok (map (fun y => PrimFloat.sub x y) b)
       | _, [y] => Ok (map (fun x => PrimFloat.sub x y) a)
       | _, _ => Raise (ValueError "operands could not be broadcast together")
       end.

(** [np.ones(n, float)]. *)
Definition ones (n : nat) : list float := replicate n 1%float.

(** [c * a] for a scalar [c]. *)
Definition scale (c : float) (a : list float) : list float :=
  map (fun x => PrimFloat.mul c x) a.

End Np.

(** ** [arrows] *)

(** The call [ax.quiver(X, Y, U, V, *args, **kw)] that [arrows] ends in. *)
Record quiver_call (Axes : Type) : Type := QuiverCall {
  q_ax : Axes;
  q_X : list float;
  q_Y : list float;
  q_U : list float;
  q_V : list float;
  q_args : list value;
  q_kwargs : gmap string value
}.
Arguments QuiverCall {Axes}.
Arguments q_ax {Axes}.
Arguments q_X {Axes}.
Arguments q_Y {Axes}.
Arguments q_U {Axes}.
Arguments q_V {Axes}.
Arguments q_args {Axes}.
Arguments q_kwargs {Axes}.

Definition msg_xstart_ystart : string := "xstart and ystart must be the same size".
Definition msg_xstart_xend : string := "xstart and xend must be the same size".
Definition msg_ystart_yend : string := "ystart and yend must be the same size".

Section Arrows.

(** The axes type of the plotting library, and the helper
    [mplsoccer.utils.validate_ax], whose source is in another module:
    it either returns or raises. *)
Variable Axes : Type.
Variable validate_ax : option Axes -> result unit.

(** [ax.quiver(...)]: attribute lookup on [None] fails, otherwise the
    call is made. *)
Definition call_quiver (ax : option Axes) (X Y U V : list float)
    (args : list value) (kw : gmap string value)
  : result (quiver_call Axes) :=
  match ax with
  | None => Raise (AttributeError "'NoneType' object has no attribute 'quiver'")
  | Some a => Ok (QuiverCall a X Y U V args kw)
  end.

Definition arrows (xstart ystart xend yend : Np.array_like)
    (args : list value) (ax : option Axes) (vertical : bool)
    (kwargs : gmap string value)
  : result (quiver_call Axes) :=
  _ ← validate_ax ax;
  let '(units, kwargs) := pop "units" (VStr "inches") kwargs in
  let '(scale_units, kwargs) := pop "scale_units" (VStr "xy") kwargs in
  let '(angles, kwargs) := pop "angles" (VStr "xy") kwargs in
  let '(scale, kwargs) := pop "scale" (VInt 1) kwargs in
  let '(width, kwargs) := pop "width" (VInt 4) kwargs in
  width ← truediv width 72%float;
  let xstart := Np.ravel xstart in
  let ystart := Np.ravel ystart in
  let xend := Np.ravel xend in
  let yend := Np.ravel yend in
  if negb (Np.size xstart =? Np.size ystart)%nat
  then Raise (ValueError msg_xstart_ystart)
  else if negb (Np.size xstart =? Np.size xend)%nat
  then Raise (ValueError msg_xstart_xend)
  else if negb (Np.size ystart =? Np.size yend)%nat
  then Raise (ValueError msg_ystart_yend)
  else
    u ← Np.subtract xend xstart;
    v ← Np.subtract yend ystart;
    let '(xstart, ystart, u, v) :=
      if vertical then (ystart, xstart, v, u) else (xstart, ystart, u, v) in
    call_quiver ax xstart ystart u v args
      (<["units" := units]>
         (<["scale_units" := scale_units]>
            (<["angles" := angles]>
               (<["scale" := scale]>
                  (<["width" := width]> kwargs))))).

End Arrows.

(** ** [HandlerQuiver] *)

(** An RGBA row of a colour array. *)
Record rgba : Type := RGBA { red : float; green : float; blue : float; alpha : float }.

(** The attributes of a [matplotlib.quiver.Quiver] artist that the handler
    reads: the stored [width], [headwidth], [headlength] and
    [headaxislength], and the results of [get_edgecolor()],
    [get_facecolor()] and [get_linewidths()]. *)
Record Quiver : Type := MkQuiver {
  quiver_width : float;
  quiver_headwidth : float;
  quiver_headlength : float;
  quiver_headaxislength : float;
  quiver_edgecolor : list rgba;
  quiver_facecolor : list rgba;
  quiver_linewidths : list float
}.

(** The call [patches.FancyArrow(...)] followed by [set_transform(trans)]. *)
Record FancyArrow (Transform : Type) : Type := MkFancyArrow {
  fa_x : float;
  fa_y : float;
  fa_dx : float;
  fa_dy : float;
  fa_head_width : float;
  fa_head_length : float;
  fa_overhang : float;
  fa_length_includes_head : bool;
  fa_width : float;
  fa_lw : float;
  fa_edgecolor : option rgba;
  fa_facecolor : option rgba;
  fa_transform : Transform
}.
Arguments MkFancyArrow {Transform}.
Arguments fa_x {Transform}.
Arguments fa_y {Transform}.
Arguments fa_dx {Transform}.
Arguments fa_dy {Transform}.
Arguments fa_head_width {Transform}.
Arguments fa_head_length {Transform}.
Arguments fa_overhang {Transform}.
Arguments fa_length_includes_head {Transform}.
Arguments fa_width {Transform}.
Arguments fa_lw {Transform}.
Arguments fa_edgecolor {Transform}.
Arguments fa_facecolor {Transform}.
Arguments fa_transform {Transform}.

(** The style of a glyph: everything but where it is placed. *)
Record glyph_style : Type := MkStyle {
  st_head_width : float;
  st_head_length : float;
  st_overhang : float;
  st_length_includes_head : bool;
  st_width : float;
  st_lw : float;
  st_edgecolor : option rgba;
  st_facecolor : option rgba
}.

Definition style_of {Transform} (g : FancyArrow Transform) : glyph_style :=
  MkStyle (fa_head_width g) (fa_head_length g) (fa_overhang g)
          (fa_length_includes_head g) (fa_width g) (fa_lw g)
          (fa_edgecolor g) (fa_facecolor g).

Module HandlerQuiver.
Section Handler.

(** The legend and transform types of the plotting library, and
    [get_xdata], inherited from [HandlerLine2D]. *)
Variable Legend : Type.
Variable Transform : Type.
Variable get_xdata :
  Legend -> float -> float -> float -> float -> float -> list float * list float.

(** [None if len(c) == 0 else c[0]]. *)
Definition first_or_None {A} (c : list A) : result (option A) :=
  if (length c =? 0)%nat then Ok None else (x ← first c; Ok (Some x)).

Definition create_artists (legend : Legend) (orig_handle : Quiver)
    (xdescent ydescent width height fontsize : float) (trans : Transform)
  : result (list (FancyArrow Transform)) :=
  let '(xdata, _) := get_xdata legend xdescent ydescent width height fontsize in
  half ← float_truediv (PrimFloat.sub height ydescent) 2%float;
  let ydata := Np.scale half (Np.ones (length xdata)) in
  let width := PrimFloat.mul (quiver_width orig_handle) 72%float in
  let head_width := PrimFloat.mul width (quiver_headwidth orig_handle) in
  let head_length := PrimFloat.mul width (quiver_headlength orig_handle) in
  overhang ← float_truediv
    (PrimFloat.sub (quiver_headlength orig_handle) (quiver_headaxislength orig_handle))
    (quiver_headlength orig_handle);
  let edgecolor := quiver_edgecolor orig_handle in
  let facecolor := quiver_facecolor orig_handle in
  edgecolor ← first_or_None edgecolor;
  facecolor ← first_or_None facecolor;
  x ← first xdata;
  y ← first ydata;
  xlast ← final xdata;
  x0 ← first xdata;
  ylast ← final ydata;
  y0 ← first ydata;
  lw ← first (quiver_linewidths orig_handle);
  let legline :=
    MkFancyArrow x y (PrimFloat.sub xlast x0) (PrimFloat.sub ylast y0)
                 head_width head_length overhang true width lw
                 edgecolor facecolor trans in
  Ok [legline].

End Handler.
End HandlerQuiver.


(** ** Vocabulary of the properties *)

(** The four flattened inputs all have one size. *)
Definition all_same_size (xstart ystart xend yend : Np.array_like) : Prop :=
  let n := Np.size (Np.ravel xstart) in
  Np.size (Np.ravel ystart) = n /\ Np.size (Np.ravel xend) = n /\
  Np.size (Np.ravel yend) = n.




(** The width option as [arrows] reads it, before the division. *)
Definition width_option (kwargs : gmap string value) : value :=
  default (VInt 4) (kwargs !! "width").

(** The keyword arguments of the final call: what is left of [kwargs]
    after the five [pop]s, under the five options set explicitly. *)
Definition final_kwargs (kwargs : gmap string value) (width : value)
  : gmap string value :=
  <["units" := default (VStr "inches") (kwargs !! "units")]>
    (<["scale_units" := default (VStr "xy") (kwargs !! "scale_units")]>
       (<["angles" := default (VStr "xy") (kwargs !! "angles")]>
          (<["scale" := default (VInt 1) (kwargs !! "scale")]>
             (<["width" := width]>
                (delete "width" (delete "scale" (delete "angles"
                   (delete "scale_units" (delete "units" kwargs))))))))).

(** The call [arrows] ends in when every check passes, written with
    elementwise differences. *)
Definition delegated_call {Axes} (a : Axes)
    (xstart ystart xend yend : Np.array_like) (args : list value)
    (vertical : bool) (kwargs : gmap string value) (width : value)
  : quiver_call Axes :=
  let u := zip_with PrimFloat.sub (Np.ravel xend) (Np.ravel xstart) in
  let v := zip_with PrimFloat.sub (Np.ravel yend) (Np.ravel ystart) in
  QuiverCall a
    (if vertical then Np.ravel ystart else Np.ravel xstart)
    (if vertical then Np.ravel xstart else Np.ravel ystart)
    (if vertical then v else u)
    (if vertical then u else v)
    args (final_kwargs kwargs width).

(** The statements of [arrows] that precede the size checks both return:
    [validate_ax(ax)] and [width / 72.]. *)
Definition reaches_checks {Axes} (validate_ax : option Axes -> result unit)
    (ax : option Axes) (kwargs : gmap string value) : Prop :=
  validate_ax ax = Ok () /\
  exists w, truediv (width_option kwargs) 72%float = Ok w.



(** ** Instances used in the examples *)

(** A helper that rejects a missing axis and accepts any axis given. *)
Definition validate_ax_required {Axes} (ax : option Axes) : result unit :=
  match ax with
  | None => Raise (TypeError "Missing 1 required argument: ax")
  | Some _ => Ok ()
  end.

(** The two end points of the legend box, as the base handler gives them
    for a single legend point. *)
Definition two_point_xdata (legend : unit)
    (xdescent ydescent width height fontsize : float)
  : list float * list float :=
  ([PrimFloat.opp xdescent; PrimFloat.add (PrimFloat.opp xdescent) width],
   [PrimFloat.add (PrimFloat.opp xdescent) (PrimFloat.mul 0.5%float width)]).

Definition black : rgba := RGBA 0 0 0 1.

(** A quiver artist as [arrows] makes it with its defaults. *)
Definition default_quiver : Quiver :=
  MkQuiver (PrimFloat.div 4 72) 3 5 4.5 [] [black] [1%float].


(** A width whose trip through [/ 72.] and [* 72.] does not come back:
    the double nearest to 2.9. *)
Definition width_2_9 : float := 0x1.7333333333333p+1%float.

(** The artist [arrows] makes when it is given that width. *)
Definition quiver_2_9 : Quiver :=
  MkQuiver (PrimFloat.div width_2_9 72) 3 5 4.5 [] [black] [1%float].

(** ** Vocabulary of the further properties *)

(** A quiver call with the roles of x and y exchanged: locations and
    directions both. *)
Definition transpose_call {Axes} (c : quiver_call Axes) : quiver_call Axes :=
  QuiverCall (q_ax c) (q_Y c) (q_X c) (q_V c) (q_U c) (q_args c) (q_kwargs c).




(** The five options with the defaults [arrows] gives them. *)
Definition curated_defaults : list (string * value) :=
  [("units", VStr "inches"); ("scale_units", VStr "xy"); ("angles", VStr "xy");
   ("scale", VInt 1); ("width", VInt 4)].

(** ** Facts about the Python and numpy fragments *)

Lemma float_truediv_nonzero (a b : float) :
  PrimFloat.eqb b 0 = false -> float_truediv a b = Ok (PrimFloat.div a b).
Proof. unfold float_truediv. intros ->. reflexivity. Qed.

Lemma float_truediv_zero (a b : float) :
  PrimFloat.eqb b 0 = true ->
  float_truediv a b = Raise (ZeroDivisionError "float division by zero").
Proof. unfold float_truediv. intros ->. reflexivity. Qed.

Lemma truediv_float_72 (w : float) :
  truediv (VFloat w) 72 = Ok (VFloat (PrimFloat.div w 72)).
Proof. reflexivity. Qed.

Lemma truediv_default_width :
  truediv (VInt 4) 72 = Ok (VFloat (PrimFloat.div 4 72)).
Proof. vm_compute. reflexivity. Qed.


Lemma subtract_same_length (a b : list float) :
  length a = length b -> Np.subtract a b = Ok (zip_with PrimFloat.sub a b).
Proof. intros H. unfold Np.subtract. rewrite decide_True by exact H. reflexivity. Qed.



(** ** The structure of [arrows] *)

Section ArrowsFacts.

Context {Axes : Type}.
Variable validate_ax : option Axes -> result unit.

(** [arrows] with the five [pop]s carried out. *)
Lemma arrows_unfold xstart ystart xend yend args ax vertical kwargs :
  arrows Axes validate_ax xstart ystart xend yend args ax vertical kwargs =
  (_ ← validate_ax ax;
   width ← truediv (width_option kwargs) 72%float;
   if negb (Np.size (Np.ravel xstart) =? Np.size (Np.ravel ystart))%nat
   then Raise (ValueError msg_xstart_ystart)
   else if negb (Np.size (Np.ravel xstart) =? Np.size (Np.ravel xend))%nat
   then Raise (ValueError msg_xstart_xend)
   else if negb (Np.size (Np.ravel ystart) =? Np.size (Np.ravel yend))%nat
   then Raise (ValueError msg_ystart_yend)
   else
     u ← Np.subtract (Np.ravel xend) (Np.ravel xstart);
     v ← Np.subtract (Np.ravel yend) (Np.ravel ystart);
     call_quiver Axes ax
       (if vertical then Np.ravel ystart else Np.ravel xstart)
       (if vertical then Np.ravel xstart else Np.ravel ystart)
       (if vertical then v else u)
       (if vertical then u else v)
       args (final_kwargs kwargs width)).
Proof.
  unfold arrows, pop, width_option, final_kwargs.
  rewrite !lookup_delete_ne by done.
  destruct (validate_ax ax) as [[]|e]; [|reflexivity]. cbn [mbind result_bind].
  destruct (truediv _ _) as [w|e]; [|reflexivity]. cbn [mbind result_bind].
  repeat (match goal with |- context [negb ?b] => destruct b end; cbn [negb];
          try reflexivity).
  destruct (Np.subtract (Np.ravel xend) _) as [u|e]; [|reflexivity].
  cbn [mbind result_bind].
  destruct (Np.subtract (Np.ravel yend) _) as [v|e]; [|reflexivity].
  cbn [mbind result_bind].
  destruct vertical; reflexivity.
Qed.

(** The three pairwise checks pass exactly when the four sizes agree. *)
Lemma checks_pass_iff xstart ystart xend yend :
  all_same_size xstart ystart xend yend <->
  (Np.size (Np.ravel xstart) =? Np.size (Np.ravel ystart))%nat = true /\
  (Np.size (Np.ravel xstart) =? Np.size (Np.ravel xend))%nat = true /\
  (Np.size (Np.ravel ystart) =? Np.size (Np.ravel yend))%nat = true.
Proof.
  unfold all_same_size. rewrite !Nat.eqb_eq. cbv zeta. lia.
Qed.

(** Past the first two statements, equal sizes lead to the call. *)
Lemma arrows_Ok_intro xstart ystart xend yend args a vertical kwargs w :
  validate_ax (Some a) = Ok () ->
  truediv (width_option kwargs) 72%float = Ok w ->
  all_same_size xstart ystart xend yend ->
  arrows Axes validate_ax xstart ystart xend yend args (Some a) vertical kwargs
  = Ok (delegated_call a xstart ystart xend yend args vertical kwargs w).
Proof.
  intros Hv Hw Hs. rewrite arrows_unfold, Hv, Hw. cbn [mbind result_bind].
  pose proof Hs as (H1 & H2 & H3)%checks_pass_iff. rewrite H1, H2, H3. cbn [negb].
  destruct Hs as (Hy & Hxe & Hye). unfold Np.size in *.
  rewrite !subtract_same_length by congruence.
  destruct vertical; reflexivity.
Qed.


(** A call is made only with an axis, past the first two statements, on
    inputs of one size; and the call is [delegated_call]. *)
Lemma arrows_Ok_inv xstart ystart xend yend args ax vertical kwargs c :
  arrows Axes validate_ax xstart ystart xend yend args ax vertical kwargs = Ok c ->
  exists a w,
    ax = Some a /\ validate_ax ax = Ok () /\
    truediv (width_option kwargs) 72%float = Ok w /\
    all_same_size xstart ystart xend yend /\
    c = delegated_call a xstart ystart xend yend args vertical kwargs w.
Proof.
  rewrite arrows_unfold.
  destruct (validate_ax ax) as [[]|e] eqn:Hv; [|discriminate].
  cbn [mbind result_bind].
  destruct (truediv _ _) as [w|e] eqn:Hw; [|discriminate].
  cbn [mbind result_bind].
  destruct (Np.size (Np.ravel xstart) =? Np.size (Np.ravel ystart))%nat eqn:E1;
    cbn [negb]; [|discriminate].
  destruct (Np.size (Np.ravel xstart) =? Np.size (Np.ravel xend))%nat eqn:E2;
    cbn [negb]; [|discriminate].
  destruct (Np.size (Np.ravel ystart) =? Np.size (Np.ravel yend))%nat eqn:E3;
    cbn [negb]; [|discriminate].
  assert (Hs : all_same_size xstart ystart xend yend)
    by (apply checks_pass_iff; auto).
  pose proof Hs as (Hy & Hxe & Hye). unfold Np.size in Hy, Hxe, Hye.
  rewrite !subtract_same_length by congruence. cbn [mbind result_bind].
  destruct ax as [a|]; cbn [call_quiver]; [|discriminate].
  intros [= <-]. exists a, w.
  repeat split; try assumption; try apply Hs.
Qed.

(** Past the first two statements, equal sizes lead to [ax.quiver]
    whatever [ax] is. *)
Lemma arrows_same_size xstart ystart xend yend args ax vertical kwargs w :
  validate_ax ax = Ok () ->
  truediv (width_option kwargs) 72%float = Ok w ->
  all_same_size xstart ystart xend yend ->
  arrows Axes validate_ax xstart ystart xend yend args ax vertical kwargs
  = match ax with
    | Some a => Ok (delegated_call a xstart ystart xend yend args vertical kwargs w)
    | None => Raise (AttributeError "'NoneType' object has no attribute 'quiver'")
    end.
Proof.
  intros Hv Hw Hs. destruct ax as [a|].
  - apply arrows_Ok_intro; assumption.
  - rewrite arrows_unfold, Hv, Hw. cbn [mbind result_bind].
    pose proof Hs as (H1 & H2 & H3)%checks_pass_iff. rewrite H1, H2, H3. cbn [negb].
    destruct Hs as (Hy & Hxe & Hye). unfold Np.size in *.
    rewrite !subtract_same_length by congruence. reflexivity.
Qed.

(** The first two statements return on every call with an axis
    [validate_ax] accepts and a width left out or given as a float. *)
Lemma reaches_checks_float_width ax kwargs :
  validate_ax ax = Ok () ->
  kwargs !! "width" = None \/ (exists w, kwargs !! "width" = Some (VFloat w)) ->
  reaches_checks validate_ax ax kwargs.
Proof.
  intros Hv Hk. split; [exact Hv|]. unfold width_option.
  destruct Hk as [->|[w ->]]; cbn [default id].
  - rewrite truediv_default_width. eauto.
  - rewrite truediv_float_72. eauto.
Qed.

(** ** Length validation *)



(** ** The direction vectors and the vertical swap *)



(** ** Keyword options *)



(** ** The errors [arrows] raises itself *)


End ArrowsFacts.

(** ** The structure of [create_artists] *)

Lemma first_or_None_head {A} (c : list A) :
  HandlerQuiver.first_or_None c = Ok (head c).
Proof. destruct c; reflexivity. Qed.

Lemma final_cons {A} (x : A) (l : list A) :
  final (x :: l) = Ok (default x (last l)).
Proof.
  unfold final. rewrite last_cons. destruct (last l); reflexivity.
Qed.

Lemma ydata_first (c : float) (n : nat) :
  first (Np.scale c (Np.ones (S n))) = Ok (PrimFloat.mul c 1).
Proof. reflexivity. Qed.

Lemma ydata_final (c : float) (n : nat) :
  final (Np.scale c (Np.ones (S n))) = Ok (PrimFloat.mul c 1).
Proof.
  unfold Np.scale, Np.ones. induction n as [|n IH]; [reflexivity|].
  unfold final in *. cbn [replicate map] in *. rewrite last_cons_cons. exact IH.
Qed.

Section HandlerFacts.

Context {Legend Transform : Type}.
Variable get_xdata :
  Legend -> float -> float -> float -> float -> float -> list float * list float.

(** The glyph [create_artists] builds from the end points [x] and [xlast]
    of the legend box and the first line width [lw]. *)
Lemma create_artists_unfold legend h xdescent ydescent width height fontsize
    (trans : Transform) :
  HandlerQuiver.create_artists Legend Transform get_xdata legend h
    xdescent ydescent width height fontsize trans =
  if PrimFloat.eqb (quiver_headlength h) 0
  then Raise (ZeroDivisionError "float division by zero")
  else
    match (get_xdata legend xdescent ydescent width height fontsize).1 with
    | [] => Raise (IndexError "index out of range")
    | x :: rest =>
        match quiver_linewidths h with
        | [] => Raise (IndexError "index out of range")
        | lw :: _ =>
            let y := PrimFloat.mul
                       (PrimFloat.div (PrimFloat.sub height ydescent) 2) 1 in
            let w := PrimFloat.mul (quiver_width h) 72 in
            Ok [MkFancyArrow x y
                  (PrimFloat.sub (default x (last rest)) x) (PrimFloat.sub y y)
                  (PrimFloat.mul w (quiver_headwidth h))
                  (PrimFloat.mul w (quiver_headlength h))
                  (PrimFloat.div
                     (PrimFloat.sub (quiver_headlength h)
                                    (quiver_headaxislength h))
                     (quiver_headlength h))
                  true w lw
                  (head (quiver_edgecolor h)) (head (quiver_facecolor h))
                  trans]
        end
    end.
Proof.
  unfold HandlerQuiver.create_artists.
  destruct (get_xdata legend xdescent ydescent width height fontsize)
    as [xdata marker]. cbn [fst].
  rewrite (float_truediv_nonzero _ 2) by reflexivity. cbn [mbind result_bind].
  destruct (PrimFloat.eqb (quiver_headlength h) 0) eqn:Hz.
  - rewrite float_truediv_zero by exact Hz. reflexivity.
  - rewrite float_truediv_nonzero by exact Hz. cbn [mbind result_bind].
    rewrite !first_or_None_head. cbn [mbind result_bind].
    destruct xdata as [|x rest]; [reflexivity|].
    cbn [first mbind result_bind length].
    rewrite ydata_first, final_cons, ydata_final. cbn [mbind result_bind].
    destruct (quiver_linewidths h) as [|lw lws]; reflexivity.
Qed.

Lemma create_artists_Ok_inv legend h xdescent ydescent width height fontsize
    (trans : Transform) gs :
  HandlerQuiver.create_artists Legend Transform get_xdata legend h
    xdescent ydescent width height fontsize trans = Ok gs ->
  exists x y dx dy lw,
    PrimFloat.eqb (quiver_headlength h) 0 = false /\
    head (quiver_linewidths h) = Some lw /\
    gs = [MkFancyArrow x y dx dy
            (PrimFloat.mul (PrimFloat.mul (quiver_width h) 72)
                           (quiver_headwidth h))
            (PrimFloat.mul (PrimFloat.mul (quiver_width h) 72)
                           (quiver_headlength h))
            (PrimFloat.div
               (PrimFloat.sub (quiver_headlength h) (quiver_headaxislength h))
               (quiver_headlength h))
            true (PrimFloat.mul (quiver_width h) 72) lw
            (head (quiver_edgecolor h)) (head (quiver_facecolor h)) trans].
Proof.
  rewrite create_artists_unfold.
  destruct (PrimFloat.eqb (quiver_headlength h) 0); [discriminate|].
  destruct (get_xdata _ _ _ _ _ _).1 as [|x rest]; [discriminate|].
  destruct (quiver_linewidths h) as [|lw lws]; [discriminate|].
  cbv zeta. intros [= <-]. do 5 eexists. repeat split.
Qed.

Lemma create_artists_total legend h xdescent ydescent width height fontsize
    (trans : Transform) :
  PrimFloat.eqb (quiver_headlength h) 0 = false ->
  (get_xdata legend xdescent ydescent width height fontsize).1 <> [] ->
  quiver_linewidths h <> [] ->
  exists g,
    HandlerQuiver.create_artists Legend Transform get_xdata legend h
      xdescent ydescent width height fontsize trans = Ok [g].
Proof.
  intros Hz Hx Hl. rewrite create_artists_unfold, Hz.
  destruct (get_xdata _ _ _ _ _ _).1 as [|x rest]; [contradiction|].
  destruct (quiver_linewidths h) as [|lw lws]; [contradiction|].
  eexists. reflexivity.
Qed.

(** ** The legend glyph *)

(** C4: the glyph [create_artists] builds has [head_width] equal to
    [(width * 72.) * headwidth] and [head_length] equal to
    [(width * 72.) * headlength], for the handle's stored [width],
    [headwidth] and [headlength]: each is the product of the stored shaft
    width (times 72) and its multiplier. The glyph is built whenever the
    head length is not zero and the legend box and the line widths are not
    empty. *)
Theorem legend_head_is_width_times_multiplier
    legend h xdescent ydescent width height fontsize (trans : Transform) :
  let r := HandlerQuiver.create_artists Legend Transform get_xdata legend h
             xdescent ydescent width height fontsize trans in
  (PrimFloat.eqb (quiver_headlength h) 0 = false ->
   (get_xdata legend xdescent ydescent width height fontsize).1 <> [] ->
   quiver_linewidths h <> [] -> exists g, r = Ok [g]) /\
  (forall gs g, r = Ok gs -> g ∈ gs ->
     fa_head_width g =
       PrimFloat.mul (PrimFloat.mul (quiver_width h) 72) (quiver_headwidth h) /\
     fa_head_length g =
       PrimFloat.mul (PrimFloat.mul (quiver_width h) 72) (quiver_headlength h)).
Proof.
  cbv zeta. split; [apply create_artists_total|].
  intros gs g (x & y & dx & dy & lw & _ & _ & ->)%create_artists_Ok_inv Hg.
  apply list_elem_of_singleton in Hg as ->. split; reflexivity.
Qed.

(** C6: the style of the glyph [create_artists] builds comes from the
    handle alone: its overhang is
    [(headlength - headaxislength) / headlength], its shaft and head sizes
    come from the stored [width], [headwidth] and [headlength], its line
    width and colours are the first of the handle's, and the same handle
    gives the same style in any legend box (only the placement comes from
    the box). The glyph is built whenever the head length is not zero and
    the legend box and the line widths are not empty. *)
Theorem legend_glyph_style_from_handle
    legend h xdescent ydescent width height fontsize (trans : Transform) :
  let r := HandlerQuiver.create_artists Legend Transform get_xdata legend h
             xdescent ydescent width height fontsize trans in
  (PrimFloat.eqb (quiver_headlength h) 0 = false ->
   (get_xdata legend xdescent ydescent width height fontsize).1 <> [] ->
   quiver_linewidths h <> [] -> exists g, r = Ok [g]) /\
  (forall gs, r = Ok gs ->
   exists g, gs = [g] /\
     fa_overhang g =
       PrimFloat.div
         (PrimFloat.sub (quiver_headlength h) (quiver_headaxislength h))
         (quiver_headlength h) /\
     fa_width g = PrimFloat.mul (quiver_width h) 72 /\
     fa_head_width g = PrimFloat.mul (fa_width g) (quiver_headwidth h) /\
     fa_head_length g = PrimFloat.mul (fa_width g) (quiver_headlength h) /\
     head (quiver_linewidths h) = Some (fa_lw g) /\
     fa_edgecolor g = head (quiver_edgecolor h) /\
     fa_facecolor g = head (quiver_facecolor h) /\
     fa_length_includes_head g = true /\
     (forall legend' xdescent' ydescent' width' height' fontsize' trans' g',
        HandlerQuiver.create_artists Legend Transform get_xdata legend' h
          xdescent' ydescent' width' height' fontsize' trans' = Ok [g'] ->
        style_of g' = style_of g)).
Proof.
  cbv zeta. split; [apply create_artists_total|].
  intros gs (x & y & dx & dy & lw & _ & Hlw & ->)%create_artists_Ok_inv.
  eexists. split; [reflexivity|]. cbn.
  repeat (split; [first [reflexivity|exact Hlw]|]).
  intros legend' xd' yd' w' ht' fs' trans' g'
    (x' & y' & dx' & dy' & lw' & _ & Hlw' & Hg')%create_artists_Ok_inv.
  injection Hg' as ->. unfold style_of. cbn. congruence.
Qed.


End HandlerFacts.

(** ** From [arrows] to the legend: the width *)

Section WidthRoundTrip.

Context {Axes Legend Transform : Type}.
Variable validate_ax : option Axes -> result unit.
Variable get_xdata :
  Legend -> float -> float -> float -> float -> float -> list float * list float.

(** C10 (as amended): [arrows] forwards [width / 72.] and the handler
    multiplies the stored width by [72.]: for a quiver artist that stores
    the width [arrows] forwarded, the shaft width of the legend glyph is
    [(w / 72.) * 72.] in double precision for a float width [w], the same
    of [float(z)] for an int width [z], and exactly [4] for the default
    width. *)
Theorem legend_width_is_quotient_times_72
    xstart ystart xend yend args ax vertical kwargs c h
    legend xdescent ydescent width height fontsize (trans : Transform) gs g :
  arrows Axes validate_ax xstart ystart xend yend args ax vertical kwargs = Ok c ->
  q_kwargs c !! "width" = Some (VFloat (quiver_width h)) ->
  HandlerQuiver.create_artists Legend Transform get_xdata legend h
    xdescent ydescent width height fontsize trans = Ok gs ->
  g ∈ gs ->
  (forall w, kwargs !! "width" = Some (VFloat w) ->
             fa_width g = PrimFloat.mul (PrimFloat.div w 72) 72) /\
  (forall z, kwargs !! "width" = Some (VInt z) ->
             exists x, float_of_int z = Ok x /\
                       fa_width g = PrimFloat.mul (PrimFloat.div x 72) 72) /\
  (kwargs !! "width" = None -> fa_width g = 4%float).
Proof.
  intros (a & w & _ & _ & Hw & _ & ->)%arrows_Ok_inv Hstored
         (x & y & dx & dy & lw & _ & _ & ->)%create_artists_Ok_inv Hg.
  apply list_elem_of_singleton in Hg as ->. cbn [fa_width].
  cbn [delegated_call q_kwargs] in Hstored. unfold final_kwargs in Hstored.
  rewrite !lookup_insert_ne in Hstored by done.
  rewrite lookup_insert_eq in Hstored. injection Hstored as ->.
  unfold width_option in Hw. repeat split.
  - intros w' Hk. rewrite Hk in Hw. cbn [default id] in Hw.
    rewrite truediv_float_72 in Hw. injection Hw as <-. reflexivity.
  - intros z Hk. rewrite Hk in Hw. cbn [default id truediv] in Hw.
    destruct (float_of_int z) as [x0|e]; [|discriminate].
    cbn [mbind result_bind] in Hw.
    rewrite (float_truediv_nonzero _ 72) in Hw by reflexivity.
    cbn [mbind result_bind] in Hw. injection Hw as <-. eauto.
  - intros Hk. rewrite Hk in Hw. cbn [default] in Hw.
    rewrite truediv_default_width in Hw. injection Hw as <-.
    vm_compute. reflexivity.
Qed.

End WidthRoundTrip.

(** ** Examples

    The theorems at concrete calls: the docstring's
    [arrows(20, 20, 45, 80, ax=ax)], a call whose [ystart] has two
    elements, and the legend entry of a quiver drawn with the defaults. *)

Example arrows_two_arrows_vertical :
  let r := arrows unit validate_ax_required
             (Np.Array [2] [1; 4]%float) (Np.Array [2] [1; 5]%float)
             (Np.Array [2] [9; 4]%float) (Np.Array [2] [8; 8]%float)
             [] (Some tt) true {["color" := VStr "red"]} in
  q_X <$> returned r = Some [1; 5]%float /\
  q_Y <$> returned r = Some [1; 4]%float /\
  q_U <$> returned r = Some [7; 3]%float /\
  q_V <$> returned r = Some [8; 0]%float /\
  (fun c => q_kwargs c !! "color") <$> returned r = Some (Some (VStr "red")) /\
  (fun c => q_kwargs c !! "scale") <$> returned r = Some (Some (VInt 1)).
Proof. cbv zeta. repeat split; vm_compute; reflexivity. Qed.

Example arrows_missing_axis :
  arrows unit validate_ax_required
    (Np.Scalar 20) (Np.Scalar 20) (Np.Scalar 45) (Np.Scalar 80)
    [] None false ∅
  = Raise (TypeError "Missing 1 required argument: ax").
Proof. reflexivity. Qed.

Example arrows_width_not_a_number :
  arrows unit validate_ax_required
    (Np.Scalar 20) (Np.Scalar 20) (Np.Scalar 45) (Np.Scalar 80)
    [] (Some tt) false {["width" := VStr "wide"]}
  = Raise (TypeError "unsupported operand type(s) for /").
Proof. vm_compute. reflexivity. Qed.

Lemma reaches_checks_example :
  reaches_checks (@validate_ax_required unit) (Some tt) ∅.
Proof. split; [reflexivity|]. eexists. vm_compute. reflexivity. Defined.

Lemma all_same_size_example :
  all_same_size (Np.Scalar 20) (Np.Scalar 20) (Np.Scalar 45) (Np.Scalar 80).
Proof. repeat split. Defined.

Lemma arrows_default_call :
  arrows unit validate_ax_required
    (Np.Scalar 20) (Np.Scalar 20) (Np.Scalar 45) (Np.Scalar 80)
    [] (Some tt) false ∅
  = Ok (delegated_call tt
          (Np.Scalar 20) (Np.Scalar 20) (Np.Scalar 45) (Np.Scalar 80)
          [] false ∅ (VFloat (PrimFloat.div 4 72))).
Proof.
  apply arrows_Ok_intro;
    [reflexivity|exact truediv_default_width|exact all_same_size_example].
Defined.








Lemma legend_head_is_width_times_multiplier_witness :
  exists g,
    HandlerQuiver.create_artists unit unit two_point_xdata tt default_quiver
      0 0 20 7 10 tt = Ok [g] /\
    fa_head_width g = 12%float /\ fa_head_length g = 20%float.
Proof.
  destruct (proj1 (legend_head_is_width_times_multiplier two_point_xdata
                     tt default_quiver 0 0 20 7 10 tt)
                  eq_refl ltac:(discriminate) ltac:(discriminate)) as [g Hg].
  exists g. split; [exact Hg|].
  destruct (proj2 (legend_head_is_width_times_multiplier two_point_xdata
                     tt default_quiver 0 0 20 7 10 tt)
                  [g] g Hg (list_elem_of_here g [])) as [-> ->].
  split; vm_compute; reflexivity.
Defined.

Lemma legend_glyph_style_from_handle_witness :
  exists g,
    HandlerQuiver.create_artists unit unit two_point_xdata tt default_quiver
      0 0 20 7 10 tt = Ok [g] /\
    fa_overhang g = 0x1.999999999999ap-4%float /\ fa_facecolor g = Some black /\
    fa_edgecolor g = None.
Proof.
  destruct (proj1 (legend_glyph_style_from_handle two_point_xdata
                     tt default_quiver 0 0 20 7 10 tt)
                  eq_refl ltac:(discriminate) ltac:(discriminate)) as [g Hg].
  exists g. split; [exact Hg|].
  destruct (proj2 (legend_glyph_style_from_handle two_point_xdata
                     tt default_quiver 0 0 20 7 10 tt) [g] Hg)
    as (g' & [= <-] & -> & _ & _ & _ & _ & -> & -> & _).
  repeat split; vm_compute; reflexivity.
Defined.


(** A width that does not survive the trip: [arrows] forwards
    [2.9 / 72.], the artist stores it, and the legend glyph's shaft is one
    unit in the last place below 2.9. *)
Lemma legend_width_round_trip_inexact :
  exists c g,
    arrows unit validate_ax_required
      (Np.Scalar 20) (Np.Scalar 20) (Np.Scalar 45) (Np.Scalar 80)
      [] (Some tt) false {["width" := VFloat width_2_9]} = Ok c /\
    q_kwargs c !! "width" = Some (VFloat (quiver_width quiver_2_9)) /\
    HandlerQuiver.create_artists unit unit two_point_xdata tt quiver_2_9
      0 0 20 7 10 tt = Ok [g] /\
    fa_width g = 0x1.7333333333332p+1%float /\
    fa_width g <> width_2_9.
Proof.
  do 2 eexists. split; [vm_compute; reflexivity|].
  split; [vm_compute; reflexivity|].
  split; [vm_compute; reflexivity|].
  split; [vm_compute; reflexivity|].
  vm_compute. discriminate.
Qed.

Lemma legend_width_is_quotient_times_72_witness :
  exists g,
    HandlerQuiver.create_artists unit unit two_point_xdata tt default_quiver
      0 0 20 7 10 tt = Ok [g] /\
    fa_width g = 4%float.
Proof.
  destruct (create_artists_total two_point_xdata tt default_quiver
              0 0 20 7 10 tt eq_refl ltac:(discriminate) ltac:(discriminate))
    as [g Hg].
  exists g. split; [exact Hg|].
  refine (proj2 (proj2 (legend_width_is_quotient_times_72
            validate_ax_required two_point_xdata
            (Np.Scalar 20) (Np.Scalar 20) (Np.Scalar 45) (Np.Scalar 80)
            [] (Some tt) false ∅ _ default_quiver tt 0 0 20 7 10 tt [g] g
            arrows_default_call _ Hg (list_elem_of_here g []))) eq_refl).
  vm_compute. reflexivity.
Defined.

(** ** Further properties of [arrows] *)


(** The keyword arguments of the call do not depend on a binding the
    caller gave to [width]: it is replaced by the quotient. *)
Lemma final_kwargs_insert_width (kwargs : gmap string value) (v w : value) :
  final_kwargs (<["width" := v]> kwargs) w = final_kwargs kwargs w.
Proof.
  unfold final_kwargs. rewrite !lookup_insert_ne by done.
  do 4 f_equal. f_equal.
  apply map_eq. intros k.
  destruct (decide (k = "width")) as [->|Hw]; [rewrite !lookup_delete_eq; done|].
  rewrite lookup_delete_ne by done.
  rewrite (lookup_delete_ne (delete "scale" _)) by done.
  destruct (decide (k = "scale")) as [->|Hs]; [rewrite !lookup_delete_eq; done|].
  rewrite lookup_delete_ne by done.
  rewrite (lookup_delete_ne (delete "angles" _)) by done.
  destruct (decide (k = "angles")) as [->|Ha]; [rewrite !lookup_delete_eq; done|].
  rewrite lookup_delete_ne by done.
  rewrite (lookup_delete_ne (delete "scale_units" _)) by done.
  destruct (decide (k = "scale_units")) as [->|Hsu];
    [rewrite !lookup_delete_eq; done|].
  rewrite lookup_delete_ne by done.
  rewrite (lookup_delete_ne (delete "units" _)) by done.
  destruct (decide (k = "units")) as [->|Hu]; [rewrite !lookup_delete_eq; done|].
  rewrite !lookup_delete_ne by done. rewrite lookup_insert_ne by done.
  reflexivity.
Qed.

(** Writing a default out changes neither the width read nor the keyword
    arguments of the call. *)
Lemma explicit_default_same_kwargs (kwargs : gmap string value) k d w :
  (k, d) ∈ curated_defaults -> kwargs !! k = None ->
  width_option (<[k := d]> kwargs) = width_option kwargs /\
  final_kwargs (<[k := d]> kwargs) w = final_kwargs kwargs w.
Proof.
  unfold curated_defaults, width_option. intros Hk Hnone.
  rewrite !elem_of_cons, elem_of_nil in Hk.
  destruct Hk as [[= -> ->]|[[= -> ->]|[[= -> ->]|[[= -> ->]|[[= -> ->]|[]]]]]];
    (split;
     [ rewrite ?lookup_insert_eq, ?lookup_insert_ne by done;
       rewrite ?Hnone; reflexivity
     | apply map_eq; intros i; unfold final_kwargs;
       repeat (rewrite lookup_insert || rewrite lookup_delete);
       repeat case_decide; subst; rewrite ?Hnone; try done ]).
Qed.

Section ArrowsMore.

Context {Axes : Type}.
Variable validate_ax : option Axes -> result unit.

(** X1: errors come in the order of the statements. What [validate_ax]
    raises is raised by [arrows] whatever the other arguments are; and once
    [validate_ax] has returned, a width that is [None] or a string makes
    [arrows] raise a TypeError, also on inputs whose sizes differ. *)
Theorem arrows_error_order xstart ystart xend yend args ax vertical kwargs :
  let r := arrows Axes validate_ax xstart ystart xend yend args ax vertical kwargs in
  (forall e, validate_ax ax = Raise e -> r = Raise e) /\
  (validate_ax ax = Ok () ->
   kwargs !! "width" = Some VNone \/ (exists s, kwargs !! "width" = Some (VStr s)) ->
   exists msg, r = Raise (TypeError msg)).
Proof.
  cbv zeta. rewrite arrows_unfold. split.
  - intros e ->. reflexivity.
  - intros -> Hk. cbn [mbind result_bind]. unfold width_option.
    destruct Hk as [->|[s ->]]; cbn [default id truediv mbind result_bind];
      eexists; reflexivity.
Qed.

(** X2: which length-mismatch error is raised. Past [validate_ax(ax)] and
    [width / 72.], the first message is raised exactly when [xstart] and
    [ystart] differ in size; the second exactly when these two agree and
    [xend] differs; the third exactly when the first three agree and [yend]
    differs. *)
Theorem arrows_mismatch_message xstart ystart xend yend args ax vertical kwargs :
  let r := arrows Axes validate_ax xstart ystart xend yend args ax vertical kwargs in
  let n (a : Np.array_like) := Np.size (Np.ravel a) in
  reaches_checks validate_ax ax kwargs ->
  (r = Raise (ValueError "xstart and ystart must be the same size") <->
   n xstart <> n ystart) /\
  (r = Raise (ValueError "xstart and xend must be the same size") <->
   n xstart = n ystart /\ n xstart <> n xend) /\
  (r = Raise (ValueError "ystart and yend must be the same size") <->
   n xstart = n ystart /\ n xstart = n xend /\ n ystart <> n yend).
Proof.
  cbv zeta. intros Hr.
  assert (Hdec : all_same_size xstart ystart xend yend \/
                 ~ all_same_size xstart ystart xend yend)
    by (unfold all_same_size; cbv zeta; lia).
  destruct Hdec as [Hs|Hs].
  - destruct Hr as [Hv [w Hw]].
    rewrite (arrows_same_size _ _ _ _ _ _ _ _ _ w Hv Hw Hs).
    destruct Hs as (H1 & H2 & H3).
    repeat split; try (destruct ax; discriminate); intros; lia.
  - destruct Hr as [Hv [w Hw]]. rewrite arrows_unfold, Hv, Hw.
    cbn [mbind result_bind].
    rewrite checks_pass_iff in Hs. revert Hs.
    destruct (Nat.eqb_spec (Np.size (Np.ravel xstart)) (Np.size (Np.ravel ystart)))
      as [E1|E1]; cbn [negb].
    2:{ intros _. repeat split; try discriminate; try tauto; intros; lia. }
    destruct (Nat.eqb_spec (Np.size (Np.ravel xstart)) (Np.size (Np.ravel xend)))
      as [E2|E2]; cbn [negb].
    2:{ intros _. repeat split; try discriminate; try tauto; intros; lia. }
    destruct (Nat.eqb_spec (Np.size (Np.ravel ystart)) (Np.size (Np.ravel yend)))
      as [E3|E3]; cbn [negb].
    2:{ intros _. repeat split; try discriminate; try tauto; intros; lia. }
    tauto.
Qed.

(** X3: in the call [arrows] makes, the two location arrays and the two
    direction arrays all have the length of the flattened [xstart]: one
    entry per arrow, none for empty inputs. *)
Theorem arrows_call_lengths xstart ystart xend yend args ax vertical kwargs c :
  arrows Axes validate_ax xstart ystart xend yend args ax vertical kwargs = Ok c ->
  let n := Np.size (Np.ravel xstart) in
  length (q_X c) = n /\ length (q_Y c) = n /\
  length (q_U c) = n /\ length (q_V c) = n.
Proof.
  intros (a & w & _ & _ & _ & Hs & ->)%arrows_Ok_inv. cbv zeta.
  destruct Hs as (Hy & Hxe & Hye). unfold Np.size in *.
  cbn [delegated_call q_X q_Y q_U q_V].
  destruct vertical; rewrite ?length_zip_with; repeat split; lia.
Qed.

(** X4: the [vertical] flag changes no error, and when a call is made
    the call of [vertical=True] is the call of [vertical=False] on the same
    arguments with locations and directions transposed; the axes, the extra
    positional arguments and the keywords are the same. *)
Theorem arrows_vertical_is_transpose xstart ystart xend yend args ax kwargs :
  let rv := arrows Axes validate_ax xstart ystart xend yend args ax true kwargs in
  let rh := arrows Axes validate_ax xstart ystart xend yend args ax false kwargs in
  (forall e, rv = Raise e <-> rh = Raise e) /\
  returned rv = transpose_call <$> returned rh.
Proof.
  cbv zeta. rewrite !arrows_unfold.
  destruct (validate_ax ax) as [[]|e0]; [|split; [tauto|reflexivity]].
  cbn [mbind result_bind].
  destruct (truediv (width_option kwargs) 72%float) as [w|e0];
    [|split; [tauto|reflexivity]].
  cbn [mbind result_bind].
  destruct (negb _); [split; [tauto|reflexivity]|].
  destruct (negb _); [split; [tauto|reflexivity]|].
  destruct (negb _); [split; [tauto|reflexivity]|].
  destruct (Np.subtract (Np.ravel xend) _) as [u|e0];
    [|split; [tauto|reflexivity]].
  cbn [mbind result_bind].
  destruct (Np.subtract (Np.ravel yend) _) as [v|e0];
    [|split; [tauto|reflexivity]].
  cbn [mbind result_bind].
  destruct ax as [a|]; cbn [call_quiver]; split; try tauto; try reflexivity.
  intros e. split; discriminate.
Qed.

(** X5: leaving one of the five options out is the same as passing its
    default: for a keyword among [units], [scale_units], [angles], [scale]
    and [width] that the caller did not give, adding it with the value
    ['inches'], ['xy'], ['xy'], [1] or [4] gives the same result, call or
    error. *)
Theorem arrows_explicit_default
    xstart ystart xend yend args ax vertical kwargs k d :
  (k, d) ∈ curated_defaults -> kwargs !! k = None ->
  arrows Axes validate_ax xstart ystart xend yend args ax vertical
    (<[k := d]> kwargs)
  = arrows Axes validate_ax xstart ystart xend yend args ax vertical kwargs.
Proof.
  intros Hk Hnone. rewrite !arrows_unfold.
  rewrite (proj1 (explicit_default_same_kwargs kwargs k d VNone Hk Hnone)).
  destruct (validate_ax ax) as [[]|e]; [|reflexivity]. cbn [mbind result_bind].
  destruct (truediv (width_option kwargs) 72%float) as [w|e]; [|reflexivity].
  cbn [mbind result_bind].
  rewrite (proj2 (explicit_default_same_kwargs kwargs k d w Hk Hnone)).
  reflexivity.
Qed.

(** X6: an int width acts as the float it converts to: when [float(z)]
    is [x], passing [width=z] gives the same result as passing
    [width=x]. *)
Theorem arrows_int_width_as_float
    xstart ystart xend yend args ax vertical kwargs z x :
  float_of_int z = Ok x ->
  arrows Axes validate_ax xstart ystart xend yend args ax vertical
    (<["width" := VInt z]> kwargs)
  = arrows Axes validate_ax xstart ystart xend yend args ax vertical
      (<["width" := VFloat x]> kwargs).
Proof.
  intros Hz. rewrite !arrows_unfold. unfold width_option.
  rewrite !lookup_insert_eq. cbn [default id truediv]. rewrite Hz.
  cbn [mbind result_bind].
  destruct (validate_ax ax) as [[]|e]; [|reflexivity]. cbn [mbind result_bind].
  destruct (float_truediv x 72%float) as [q|e]; [|reflexivity].
  cbn [mbind result_bind]. rewrite !final_kwargs_insert_width. reflexivity.
Qed.


End ArrowsMore.

(** ** Further properties of [create_artists] *)

Section HandlerMore.

Context {Legend Transform : Type}.
Variable get_xdata :
  Legend -> float -> float -> float -> float -> float -> list float * list float.



End HandlerMore.

Section ArrowsOutcome.

Context {Axes : Type}.
Variable validate_ax : option Axes -> result unit.

(** X10: [arrows] makes the quiver call exactly when an axis is given,
    [validate_ax] accepts it, the width can be divided by [72.] and the four
    flattened inputs have one size; in every other case it raises. *)
Theorem arrows_calls_iff xstart ystart xend yend args ax vertical kwargs :
  let r := arrows Axes validate_ax xstart ystart xend yend args ax vertical kwargs in
  ((exists c, r = Ok c) <->
   is_Some ax /\ reaches_checks validate_ax ax kwargs /\
   all_same_size xstart ystart xend yend) /\
  ((exists e, r = Raise e) <->
   ~ (is_Some ax /\ reaches_checks validate_ax ax kwargs /\
      all_same_size xstart ystart xend yend)).
Proof.
  cbv zeta.
  assert (Hiff : (exists c, arrows Axes validate_ax xstart ystart xend yend
                              args ax vertical kwargs = Ok c) <->
                 is_Some ax /\ reaches_checks validate_ax ax kwargs /\
                 all_same_size xstart ystart xend yend).
  { split.
    - intros [c (a & w & -> & Hv & Hw & Hs & _)%arrows_Ok_inv].
      split; [eauto|]. split; [split; eauto|exact Hs].
    - intros ([a ->] & [Hv [w Hw]] & Hs). eexists.
      apply (arrows_Ok_intro _ _ _ _ _ _ _ _ _ w Hv Hw Hs). }
  split; [exact Hiff|].
  destruct (arrows Axes validate_ax xstart ystart xend yend args ax vertical kwargs)
    as [c|e].
  - split; [intros [e He]; discriminate|]. intros Hn. exfalso. apply Hn.
    apply Hiff. eauto.
  - split; [|eauto]. intros _ Hyes. apply Hiff in Hyes as [c Hc]. discriminate.
Qed.

End ArrowsOutcome.

(** ** Examples of the further properties *)

Lemma arrows_error_order_witness :
  arrows unit validate_ax_required
    (Np.Scalar 0) (Np.Array [2] [0; 1]%float) (Np.Scalar 1) (Np.Scalar 1)
    [] None false ∅
  = Raise (TypeError "Missing 1 required argument: ax") /\
  exists msg,
    arrows unit validate_ax_required
      (Np.Scalar 0) (Np.Array [2] [0; 1]%float) (Np.Scalar 1) (Np.Scalar 1)
      [] (Some tt) false {["width" := VStr "wide"]}
    = Raise (TypeError msg).
Proof.
  split.
  - apply (proj1 (arrows_error_order validate_ax_required
                    (Np.Scalar 0) (Np.Array [2] [0; 1]%float)
                    (Np.Scalar 1) (Np.Scalar 1) [] None false ∅)).
    reflexivity.
  - apply (proj2 (arrows_error_order validate_ax_required
                    (Np.Scalar 0) (Np.Array [2] [0; 1]%float)
                    (Np.Scalar 1) (Np.Scalar 1) [] (Some tt) false
                    {["width" := VStr "wide"]})).
    + reflexivity.
    + right. exists "wide". vm_compute. reflexivity.
Defined.

Lemma arrows_mismatch_message_witness :
  arrows unit validate_ax_required
    (Np.Scalar 0) (Np.Scalar 0) (Np.Scalar 1) (Np.Array [2] [1; 2]%float)
    [] (Some tt) false ∅
  = Raise (ValueError "ystart and yend must be the same size").
Proof.
  apply (proj2 (proj2 (arrows_mismatch_message validate_ax_required
                         (Np.Scalar 0) (Np.Scalar 0) (Np.Scalar 1)
                         (Np.Array [2] [1; 2]%float) [] (Some tt) false ∅
                         reaches_checks_example))).
  cbn. repeat split; lia.
Defined.

Lemma arrows_call_lengths_witness :
  length (q_U (delegated_call tt
                 (Np.Scalar 20) (Np.Scalar 20) (Np.Scalar 45) (Np.Scalar 80)
                 [] false ∅ (VFloat (PrimFloat.div 4 72)))) = 1.
Proof.
  exact (proj1 (proj2 (proj2 (arrows_call_lengths validate_ax_required
                                (Np.Scalar 20) (Np.Scalar 20)
                                (Np.Scalar 45) (Np.Scalar 80)
                                [] (Some tt) false ∅ _ arrows_default_call)))).
Defined.

Lemma arrows_explicit_default_witness :
  arrows unit validate_ax_required
    (Np.Scalar 20) (Np.Scalar 20) (Np.Scalar 45) (Np.Scalar 80)
    [] (Some tt) false (<["scale" := VInt 1]> ∅)
  = arrows unit validate_ax_required
      (Np.Scalar 20) (Np.Scalar 20) (Np.Scalar 45) (Np.Scalar 80)
      [] (Some tt) false ∅.
Proof.
  apply (arrows_explicit_default validate_ax_required).
  - unfold curated_defaults. do 3 apply list_elem_of_further.
    apply list_elem_of_here.
  - reflexivity.
Defined.

Lemma arrows_int_width_as_float_witness :
  arrows unit validate_ax_required
    (Np.Scalar 20) (Np.Scalar 20) (Np.Scalar 45) (Np.Scalar 80)
    [] (Some tt) false (<["width" := VInt 2]> ∅)
  = arrows unit validate_ax_required
      (Np.Scalar 20) (Np.Scalar 20) (Np.Scalar 45) (Np.Scalar 80)
      [] (Some tt) false (<["width" := VFloat 2]> ∅).
Proof.
  apply (arrows_int_width_as_float validate_ax_required).
  vm_compute. reflexivity.
Defined.



Lemma arrows_calls_iff_witness :
  exists c,
    arrows unit validate_ax_required
      (Np.Scalar 20) (Np.Scalar 20) (Np.Scalar 45) (Np.Scalar 80)
      [] (Some tt) false ∅ = Ok c.
Proof.
  apply (proj1 (arrows_calls_iff validate_ax_required
                  (Np.Scalar 20) (Np.Scalar 20) (Np.Scalar 45) (Np.Scalar 80)
                  [] (Some tt) false ∅)).
  split; [exists tt; reflexivity|].
  split; [exact reaches_checks_example|exact all_same_size_example].
Defined.


